(** * GS1 Syntax Dictionary: the code-list linters [iso3166] and [iso4217]

    A shallow embedding of [gs1_lint_iso3166] (src/lint_iso3166.c) and of its
    sibling [gs1_lint_iso4217], followed by the properties of the fixed-set
    membership validator that the specification states about them.

    Conventions of the embedding.
    - A [string] holds the bytes that [data] points to; the terminating NUL
      of the C object follows the last byte.  The C library routines read a
      buffer up to its first NUL, so [strlen] and [strcmp] below stop there
      too, and [c_str] is the C string a buffer denotes.
    - [size_t] values are [nat]: every index the search computes lies between
      0 and the number of rows of the table (lemma [loop_body_in_range]), and
      the only other [size_t] is a [strlen], so nothing wraps around.
    - [int] values ([valid], the result of [strcmp]) are [Z].
    - [data] is a [string], never [NULL]: the linters [assert(data)], and
      a [NULL] argument is outside their contract.
    - The out-parameters are pointers: [None] is [NULL], [Some l] is the
      address of a caller's [size_t] object.  A linter is a command over a
      memory that also records every write in order; a write through [NULL]
      is a fault. *)

From Stdlib Require Import List Arith ZArith Lia Bool String Ascii.
From Equations Require Import Equations.
Import ListNotations.

(* ===================================================================== *)
(** * Part I: definitions                                                 *)
(* ===================================================================== *)

(** ** C strings *)

(** The value of a [char] read as [unsigned char], as [strcmp] compares. *)
Definition uchar (c : ascii) : Z := Z.of_N (N_of_ascii c).

(** [strlen]: the number of bytes before the first NUL. *)
Fixpoint strlen (s : string) : nat :=
  match s with
  | EmptyString => 0
  | String c s' => if (uchar c =? 0)%Z then 0 else S (strlen s')
  end.

(** The string a buffer denotes: its bytes before the first NUL. *)
Fixpoint c_str (s : string) : string :=
  match s with
  | EmptyString => EmptyString
  | String c s' => if (uchar c =? 0)%Z then EmptyString else String c (c_str s')
  end.

(** [strcmp]: walk both strings; at the first position where the bytes
    differ return their difference (as [unsigned char]); return 0 when both
    reach their NUL together.  The end of a [string] is its NUL.  C fixes
    only the sign of a non-zero result, and the linters test only the
    sign. *)
Fixpoint strcmp (a b : string) : Z :=
  match a, b with
  | EmptyString, EmptyString => 0
  | EmptyString, String y _ => 0 - uchar y
  | String x _, EmptyString => uchar x - 0
  | String x a', String y b' =>
      if uchar x =? uchar y
      then (if uchar x =? 0 then 0 else strcmp a' b')
      else uchar x - uchar y
  end%Z.

(** ** Result codes *)

(** Modelled from the spec: the header gs1syntaxdictionary.h, which declares
    [gs1_lint_err_t], is not among the sources.  The two linters return
    [GS1_LINTER_OK] or their own "not in the set" code; the other codes of
    the enumeration are never produced by them and are left out. *)
Inductive gs1_lint_err_t : Set :=
| GS1_LINTER_OK
| GS1_LINTER_NOT_ISO3166
| GS1_LINTER_NOT_ISO4217.

(** ** Memory and commands *)

Definition loc := nat.

(** A [size_t *]: [None] is [NULL]. *)
Definition ptr := option loc.
Definition NULL : ptr := None.

Definition is_null (p : ptr) : bool :=
  match p with None => true | Some _ => false end.

(** The caller's [size_t] objects, and the writes performed so far (oldest
    first). *)
Record memory : Type := Memory {
  contents : loc -> nat;
  writes : list (loc * nat)
}.

Inductive outcome (A : Type) : Type :=
| Fault
| Return (a : A) (m : memory).
Arguments Fault {A}.
Arguments Return {A} a m.

Definition Cmd (A : Type) : Type := memory -> outcome A.

Definition ret {A} (a : A) : Cmd A := fun m => Return a m.

Definition bind {A B} (c : Cmd A) (k : A -> Cmd B) : Cmd B :=
  fun m => match c m with
           | Fault => Fault
           | Return a m' => k a m'
           end.

Declare Scope cmd_scope.
Delimit Scope cmd_scope with cmd.
Notation "c1 ;; c2" := (bind c1 (fun _ => c2))
  (at level 61, right associativity) : cmd_scope.

(** The memory after [v] is written at [l]. *)
Definition write (l : loc) (v : nat) (m : memory) : memory :=
  {| contents := fun l' => if l' =? l then v else contents m l';
     writes := writes m ++ [(l, v)] |}.

(** [*p = v]. *)
Definition store (p : ptr) (v : nat) : Cmd unit :=
  fun m => match p with
           | None => Fault
           | Some l => Return tt (write l v m)
           end.

(** [if (p) *p = v;] *)
Definition store_if_nonnull (p : ptr) (v : nat) : Cmd unit :=
  if is_null p then ret tt else store p v.

Definition result_code {A} (o : outcome A) : option A :=
  match o with Fault => None | Return a _ => Some a end.

Definition final_memory {A} (o : outcome A) : option memory :=
  match o with Fault => None | Return _ m => Some m end.

(** ** The lookup: binary search over a sorted table *)

Definition inspect {A} (a : A) : {b : A | a = b} := exist _ a eq_refl.

(** What one execution of the loop body does. *)
Inductive body_result : Set :=
| Next (s e : nat)      (* new bounds; [valid] untouched *)
| Found.                (* [valid = 1; break;] *)

Section Lookup.

(** The static table ([iso3166], [iso4217]) and the argument [cc]. *)
Variable table : list string.
Variable cc : string.

(** [table[m]]. *)
Definition entry (m : nat) : string := nth m table EmptyString.

(** [s + (e - s) / 2]. *)
Definition midpoint (s e : nat) : nat := s + (e - s) / 2.

Definition loop_body (s e : nat) : body_result :=
  let m := midpoint s e in
  let cmp := strcmp (entry m) cc in
  if (cmp <? 0)%Z then Next (m + 1) e
  else if (cmp >? 0)%Z then Next s m
  else Found.

(** [while (s < e) { body }], returning the final [valid]. *)
Equations? lookup_loop (s e : nat) (valid : Z) : Z by wf (e - s) lt :=
  lookup_loop s e valid with lt_dec s e := {
    | right _ => valid
    | left Hlt with inspect (loop_body s e) := {
        | @exist (Next s' e') Hb => lookup_loop s' e' valid
        | @exist Found _ => 1%Z } }.
Proof.
  assert (Hm : s <= midpoint s e < e).
  { unfold midpoint.
    pose proof (Nat.div_lt (e - s) 2 ltac:(lia) ltac:(lia)). lia. }
  unfold loop_body in Hb.
  destruct (_ <? 0)%Z; [| destruct (_ >? 0)%Z];
    inversion Hb; subst; lia.
Qed.

(** The macro [GS1_LINTER_<X>_LOOKUP(cc)]: [s = 0], [e] = number of rows. *)
Definition GS1_LINTER_LOOKUP (valid : Z) : Z :=
  lookup_loop 0 (List.length table) valid.

(** The loop as a transition system, one iteration per step. *)
Inductive config : Set :=
| Running (s e : nat) (valid : Z)
| Exited (s e : nat) (valid : Z).

Definition step (c : config) : config :=
  match c with
  | Running s e valid =>
      if s <? e then
        match loop_body s e with
        | Next s' e' => Running s' e' valid
        | Found => Exited s e 1%Z
        end
      else Exited s e valid
  | Exited _ _ _ => c
  end.

End Lookup.

(** ** The linter *)

Section Linter.

(** The lookup in force: [lookup cc valid] is the value of [valid] after
    the lookup code has run.  By default it is the binary search; with
    [GS1_LINTER_CUSTOM_<X>_LOOKUP] defined it is the user's code. *)
Variable lookup : string -> Z -> Z.

(** The linter's own failure code. *)
Variable not_in_set : gs1_lint_err_t.

Definition gs1_lint (data : string) (err_pos err_len : ptr)
  : Cmd gs1_lint_err_t :=
  let valid := 0%Z in
  let valid := lookup data valid in
  if negb (valid =? 0)%Z then ret GS1_LINTER_OK
  else
    (store_if_nonnull err_pos 0 ;;
     store_if_nonnull err_len (strlen data) ;;
     ret not_in_set)%cmd.

End Linter.

Local Open Scope string_scope.
Local Open Scope list_scope.
Local Open Scope nat_scope.

(** Set of ISO 3166 num-3 country codes. *)
Definition iso3166 : list string := [
  "004"; "008"; "010"; "012"; "016"; "020"; "024"; "028"; "031"; "032"; "036"; "040"; "044"; "048";
  "050"; "051"; "052"; "056"; "060"; "064"; "068"; "070"; "072"; "074"; "076"; "084"; "086"; "090"; "092"; "096";
  "100"; "104"; "108"; "112"; "116"; "120"; "124"; "132"; "136"; "140"; "144"; "148";
  "152"; "156"; "158"; "162"; "166"; "170"; "174"; "175"; "178"; "180"; "184"; "188"; "191"; "192"; "196";
  "203"; "204"; "208"; "212"; "214"; "218"; "222"; "226"; "231"; "232"; "233"; "234"; "238"; "239"; "242"; "246"; "248";
  "250"; "254"; "258"; "260"; "262"; "266"; "268"; "270"; "275"; "276"; "288"; "292"; "296";
  "300"; "304"; "308"; "312"; "316"; "320"; "324"; "328"; "332"; "334"; "336"; "340"; "344"; "348";
  "352"; "356"; "360"; "364"; "368"; "372"; "376"; "380"; "384"; "388"; "392"; "398";
  "400"; "404"; "408"; "410"; "414"; "417"; "418"; "422"; "426"; "428"; "430"; "434"; "438"; "440"; "442"; "446";
  "450"; "454"; "458"; "462"; "466"; "470"; "474"; "478"; "480"; "484"; "492"; "496"; "498"; "499";
  "500"; "504"; "508"; "512"; "516"; "520"; "524"; "528"; "531"; "533"; "534"; "535"; "540"; "548";
  "554"; "558"; "562"; "566"; "570"; "574"; "578"; "580"; "581"; "583"; "584"; "585"; "586"; "591"; "598";
  "600"; "604"; "608"; "612"; "616"; "620"; "624"; "626"; "630"; "634"; "638"; "642"; "643"; "646";
  "652"; "654"; "659"; "660"; "662"; "663"; "666"; "670"; "674"; "678"; "682"; "686"; "688"; "690"; "694";
  "702"; "703"; "704"; "705"; "706"; "710"; "716"; "724"; "728"; "729"; "732"; "740"; "744"; "748";
  "752"; "756"; "760"; "762"; "764"; "768"; "772"; "776"; "780"; "784"; "788"; "792"; "795"; "796"; "798";
  "800"; "804"; "807"; "818"; "826"; "831"; "832"; "833"; "834"; "840";
  "850"; "854"; "858"; "860"; "862"; "876"; "882"; "887"; "894"
].

(** Set of ISO 4217 three-digit currency codes. *)
Definition iso4217 : list string := [
  "008"; "012"; "032"; "036"; "044"; "048";
  "050"; "051"; "052"; "060"; "064"; "068"; "072"; "084"; "090"; "096";
  "104"; "108"; "116"; "124"; "132"; "136"; "144";
  "152"; "156"; "170"; "174"; "188"; "191"; "192";
  "203"; "208"; "214"; "222"; "230"; "232"; "238"; "242"; "262"; "270"; "292";
  "320"; "324"; "328"; "332"; "340"; "344"; "348";
  "352"; "356"; "360"; "364"; "368"; "376"; "388"; "392"; "398";
  "400"; "404"; "408"; "410"; "414"; "417"; "418";
  "422"; "426"; "430"; "434"; "446";
  "454"; "458"; "462"; "480"; "484"; "496"; "498";
  "504"; "512"; "516"; "524"; "532"; "533"; "548";
  "554"; "558"; "566"; "578"; "586"; "590"; "598";
  "600"; "604"; "608"; "634"; "643"; "646"; "654"; "682"; "690"; "694";
  "702"; "704"; "706"; "710"; "728"; "748";
  "752"; "756"; "760"; "764"; "776"; "780"; "784"; "788";
  "800"; "807"; "818"; "826"; "834"; "840"; "858"; "860"; "882"; "886";
  "901"; "925"; "927"; "928"; "929"; "930"; "931"; "932"; "933"; "934"; "936"; "938";
  "940"; "941"; "943"; "944"; "946"; "947"; "948"; "949";
  "950"; "951"; "952"; "953"; "955"; "956"; "957"; "958"; "959";
  "960"; "961"; "962"; "963"; "964"; "965"; "967"; "968"; "969";
  "970"; "971"; "972"; "973"; "975"; "976"; "977"; "978"; "979";
  "980"; "981"; "984"; "985"; "986"; "990"; "994"; "997"; "999"
].

Definition GS1_LINTER_ISO3166_LOOKUP (cc : string) (valid : Z) : Z :=
  GS1_LINTER_LOOKUP iso3166 cc valid.

Definition gs1_lint_iso3166 (data : string) (err_pos err_len : ptr)
  : Cmd gs1_lint_err_t :=
  gs1_lint GS1_LINTER_ISO3166_LOOKUP GS1_LINTER_NOT_ISO3166
           data err_pos err_len.

Definition GS1_LINTER_ISO4217_LOOKUP (cc : string) (valid : Z) : Z :=
  GS1_LINTER_LOOKUP iso4217 cc valid.

Definition gs1_lint_iso4217 (data : string) (err_pos err_len : ptr)
  : Cmd gs1_lint_err_t :=
  gs1_lint GS1_LINTER_ISO4217_LOOKUP GS1_LINTER_NOT_ISO4217
           data err_pos err_len.

(** ** Reference notions the properties are stated with *)

(** A buffer without a NUL byte: it is the C string it denotes. *)
Fixpoint nul_free (s : string) : bool :=
  match s with
  | EmptyString => true
  | String c s' => negb (uchar c =? 0)%Z && nul_free s'
  end.

(** Strict ascending order under [strcmp], checked on neighbours. *)
Fixpoint ascending (l : list string) : bool :=
  match l with
  | a :: (b :: _) as t => (strcmp a b <? 0)%Z && ascending t
  | _ => true
  end.

(** Strict ascending order under [strcmp], by position. *)
Definition sorted (table : list string) : Prop :=
  forall i j, i < j < List.length table ->
              (strcmp (entry table i) (entry table j) < 0)%Z.

(** A well-formed Reference Set of the given width. *)
Definition well_formed (width : nat) (table : list string) : bool :=
  forallb (fun t => nul_free t && Nat.eqb (String.length t) width) table
  && ascending table.

(** The naive reference membership test: scan the table from its first row
    and set [valid] at the first row equal to [cc]. *)
Fixpoint linear_lookup (table : list string) (cc : string) (valid : Z) : Z :=
  match table with
  | [] => valid
  | t :: rest => if (strcmp t cc =? 0)%Z then 1%Z else linear_lookup rest cc valid
  end.

(** The memory after a sequence of writes, oldest first. *)
Definition perform (ws : list (loc * nat)) (m : memory) : memory :=
  fold_left (fun m' w => write (fst w) (snd w) m') ws m.

(** What the failure path leaves behind: [*err_pos = 0] and then
    [*err_len = strlen(data)], each only through a non-[NULL] pointer. *)
Definition span_writes (data : string) (err_pos err_len : ptr)
  : list (loc * nat) :=
  (match err_pos with None => [] | Some p => [(p, 0)] end)
  ++ (match err_len with None => [] | Some q => [(q, strlen data)] end).

(** The memory a call leaves behind, given the code it returns: untouched
    on success, the error span on failure. *)
Definition memory_after (code : gs1_lint_err_t) (data : string)
           (err_pos err_len : ptr) (m : memory) : memory :=
  match code with
  | GS1_LINTER_OK => m
  | _ => perform (span_writes data err_pos err_len) m
  end.

(** A memory to run examples in: every object holds 7, nothing written. *)
Definition fresh_memory : memory := Memory (fun _ => 7) [].

(** The Reference Set of the boundary-probing scenario. *)
Definition probe_table : list string := ["008"; "012"; "032"].

(** How the loop may have ended at bounds [s], [e] with [valid = v] when it
    was entered with [valid = v0]: the bounds crossed and [valid] is as it
    was, or the row at the midpoint equals [cc] and [valid] is 1. *)
Definition loop_exit (table : list string) (cc : string)
           (v0 : Z) (s e : nat) (v : Z) : Prop :=
  (e <= s /\ v = v0) \/
  (s < e /\ v = 1%Z /\ strcmp (entry table (midpoint s e)) cc = 0%Z).

(** A row of [table] that [strcmp] finds equal to [cc]. *)
Definition has_row (table : list string) (cc : string) : Prop :=
  exists k, k < List.length table /\ strcmp (entry table k) cc = 0%Z.

(** A lookup that decides membership of the string [cc] denotes in [table]. *)
Definition decides_membership (table : list string)
           (lookup : string -> Z -> Z) : Prop :=
  forall cc, lookup cc 0%Z <> 0%Z <-> In (c_str cc) table.

(** ** The unit tests of the source *)

(** [UNIT_TEST_PASS(f, data)]: the call returns [GS1_LINTER_OK]. *)
Definition unit_test_pass (data : string) : bool :=
  match gs1_lint_iso3166 data (Some 1) (Some 2) fresh_memory with
  | Return GS1_LINTER_OK _ => true
  | _ => false
  end.

(** [UNIT_TEST_FAIL(f, data, GS1_LINTER_NOT_ISO3166, "*data*")]: the call
    fails with that code and marks the whole of [data]. *)
Definition unit_test_fail (data : string) : bool :=
  match gs1_lint_iso3166 data (Some 1) (Some 2) fresh_memory with
  | Return GS1_LINTER_NOT_ISO3166 m =>
      (contents m 1 =? 0) && (contents m 2 =? String.length data)
  | _ => false
  end.

(** The three-digit decimal numeral of [n], as the tests spell "000" to
    "999". *)
Definition num3 (n : nat) : string :=
  let digit d := ascii_of_nat (48 + d) in
  String (digit (n / 100 mod 10))
    (String (digit (n / 10 mod 10)) (String (digit (n mod 10)) "")).

(** The test the source has for a three-digit numeral: a pass when the
    table lists it, a failure marking the whole numeral otherwise. *)
Definition unit_test_num3 (n : nat) : bool :=
  if existsb (String.eqb (num3 n)) iso3166
  then unit_test_pass (num3 n)
  else unit_test_fail (num3 n).

(** ** Character classes *)

(** An ASCII digit, '0' to '9'. *)
Definition is_digit (c : ascii) : bool :=
  (48 <=? uchar c)%Z && (uchar c <=? 57)%Z.

Fixpoint all_digits (s : string) : bool :=
  match s with
  | EmptyString => true
  | String c s' => is_digit c && all_digits s'
  end.

(** The objects a call may write: those its out-parameters point to. *)
Definition targets (err_pos err_len : ptr) (l : loc) : Prop :=
  err_pos = Some l \/ err_len = Some l.

(* ===================================================================== *)
(** * Part II: properties                                                 *)
(* ===================================================================== *)

(** ** Facts about [strcmp], [strlen] and [c_str] *)

Section StringFacts.

Local Open Scope Z_scope.

Lemma uchar_range c : 0 <= uchar c < 256.
Proof.
  unfold uchar. pose proof (N_ascii_bounded c) as Hb. lia.
Qed.

Lemma uchar_inj x y : uchar x = uchar y -> x = y.
Proof.
  unfold uchar. intros H. apply N2Z.inj in H.
  rewrite <- (ascii_N_embedding x), <- (ascii_N_embedding y).
  now rewrite H.
Qed.

Ltac uchar_bounds :=
  repeat match goal with
         | c : ascii |- _ =>
             lazymatch goal with
             | _ : 0 <= uchar c < 256 |- _ => fail
             | _ => pose proof (uchar_range c)
             end
         end.

Lemma strcmp_antisym a : forall b, strcmp b a = - strcmp a b.
Proof.
  induction a as [| x a IH]; intros [| y b]; simpl; try lia.
  rewrite (Z.eqb_sym (uchar y) (uchar x)).
  destruct (Z.eqb_spec (uchar x) (uchar y)) as [E | E]; [| lia].
  rewrite E. destruct (uchar y =? 0); [reflexivity | apply IH].
Qed.

Lemma strcmp_c_str_l a : forall b, strcmp (c_str a) b = strcmp a b.
Proof.
  induction a as [| x a IH]; intros b; simpl; [reflexivity |].
  destruct (Z.eqb_spec (uchar x) 0) as [E | E]; destruct b as [| y b]; simpl.
  - lia.
  - rewrite E. destruct (Z.eqb_spec 0 (uchar y)); simpl; lia.
  - reflexivity.
  - destruct (uchar x =? uchar y); [| reflexivity].
    destruct (Z.eqb_spec (uchar x) 0); [lia | apply IH].
Qed.

Lemma strcmp_c_str_r a b : strcmp a (c_str b) = strcmp a b.
Proof.
  rewrite (strcmp_antisym (c_str b) a), strcmp_c_str_l.
  rewrite (strcmp_antisym b a). lia.
Qed.

Lemma strcmp_eq_iff a : forall b, strcmp a b = 0 <-> c_str a = c_str b.
Proof.
  induction a as [| x a IH]; intros [| y b]; simpl.
  - tauto.
  - pose proof (uchar_range y).
    destruct (Z.eqb_spec (uchar y) 0); split; try reflexivity; try lia.
    discriminate.
  - pose proof (uchar_range x).
    destruct (Z.eqb_spec (uchar x) 0); split; try reflexivity; try lia.
    discriminate.
  - destruct (Z.eqb_spec (uchar x) (uchar y)) as [E | E].
    + rewrite <- E. apply uchar_inj in E. subst y.
      destruct (Z.eqb_spec (uchar x) 0); [tauto |].
      rewrite IH. split; [intros -> | intros [= ->]]; reflexivity.
    + split; [lia |].
      destruct (Z.eqb_spec (uchar x) 0), (Z.eqb_spec (uchar y) 0);
        try discriminate; try lia.
      intros [= -> _]. contradiction.
Qed.

Lemma strcmp_refl a : strcmp a a = 0.
Proof. now apply strcmp_eq_iff. Qed.

Lemma strcmp_trans a : forall b c,
  strcmp a b < 0 -> strcmp b c < 0 -> strcmp a c < 0.
Proof.
  induction a as [| x a IH]; intros [| y b] [| z c]; simpl;
    uchar_bounds; try lia.
  - destruct (Z.eqb_spec (uchar y) (uchar z)); [| lia].
    destruct (Z.eqb_spec (uchar y) 0); lia.
  - destruct (Z.eqb_spec (uchar x) (uchar y)) as [Exy | Exy];
      destruct (Z.eqb_spec (uchar y) (uchar z)) as [Eyz | Eyz];
      destruct (Z.eqb_spec (uchar x) (uchar z)) as [Exz | Exz];
      try lia;
      destruct (Z.eqb_spec (uchar x) 0); destruct (Z.eqb_spec (uchar y) 0);
      try lia.
    apply IH.
Qed.

Lemma strcmp_eq_l a b c : strcmp a b = 0 -> strcmp a c = strcmp b c.
Proof.
  intros H. apply strcmp_eq_iff in H.
  rewrite <- (strcmp_c_str_l a c), H. apply strcmp_c_str_l.
Qed.

Lemma strlen_c_str s : strlen s = String.length (c_str s).
Proof.
  induction s as [| c s IH]; simpl; [reflexivity |].
  destruct (uchar c =? 0); simpl; congruence.
Qed.

Lemma nul_free_c_str s : nul_free s = true -> c_str s = s.
Proof.
  induction s as [| c s IH]; simpl; [reflexivity |].
  destruct (uchar c =? 0); simpl; [discriminate |].
  intros H. now rewrite IH.
Qed.


End StringFacts.

(** ** Ascending tables *)

Section SortedFacts.

Local Open Scope Z_scope.

Lemma ascending_cons a l :
  ascending (a :: l) = true ->
  ascending l = true /\ Forall (fun b => strcmp a b < 0) l.
Proof.
  revert a. induction l as [| b l IH]; intros a H.
  - split; [reflexivity | constructor].
  - simpl in H. apply andb_true_iff in H. destruct H as [Hab Hl].
    apply Z.ltb_lt in Hab. split; [exact Hl |].
    constructor; [exact Hab |].
    destruct (IH b Hl) as [_ Hb].
    eapply Forall_impl; [| exact Hb].
    intros c Hbc. simpl in Hbc. now apply strcmp_trans with b.
Qed.

Lemma ascending_sorted table : ascending table = true -> sorted table.
Proof.
  unfold sorted, entry.
  induction table as [| a l IH]; intros H i j Hij; simpl in Hij; [lia |].
  destruct (ascending_cons _ _ H) as [Hl Ha].
  destruct j as [| j]; [lia |].
  destruct i as [| i]; simpl.
  - rewrite Forall_forall in Ha. apply Ha, nth_In. lia.
  - apply IH; [exact Hl | lia].
Qed.

Lemma sorted_injective table i j :
  sorted table ->
  (i < List.length table)%nat -> (j < List.length table)%nat ->
  strcmp (entry table i) (entry table j) = 0 -> i = j.
Proof.
  intros Hs Hi Hj H.
  destruct (Nat.lt_trichotomy i j) as [Hlt | [Heq | Hgt]]; [| exact Heq |].
  - specialize (Hs i j ltac:(lia)). lia.
  - specialize (Hs j i ltac:(lia)).
    rewrite (strcmp_antisym (entry table j) (entry table i)) in H. lia.
Qed.

Lemma sorted_NoDup table : sorted table -> NoDup table.
Proof.
  intros Hs. apply (NoDup_nth table EmptyString).
  intros i j Hi Hj E. apply (sorted_injective table i j Hs Hi Hj).
  unfold entry. rewrite E. apply strcmp_refl.
Qed.

End SortedFacts.

(** ** The search loop *)

Section LookupFacts.

Variable table : list string.
Variable cc : string.

Lemma midpoint_bounds s e :
  s < e ->
  s <= midpoint s e < e /\
  midpoint s e - s <= (e - s) / 2 /\
  e - (midpoint s e + 1) <= (e - s) / 2.
Proof.
  intros Hlt. unfold midpoint.
  pose proof (Nat.div_mod_eq (e - s) 2) as Hd.
  pose proof (Nat.mod_upper_bound (e - s) 2 ltac:(lia)) as Hm.
  lia.
Qed.

Lemma loop_body_Next s e s' e' :
  loop_body table cc s e = Next s' e' ->
  (s' = midpoint s e + 1 /\ e' = e /\
   (strcmp (entry table (midpoint s e)) cc < 0)%Z) \/
  (s' = s /\ e' = midpoint s e /\
   (strcmp (entry table (midpoint s e)) cc > 0)%Z).
Proof.
  unfold loop_body.
  destruct (Z.ltb_spec (strcmp (entry table (midpoint s e)) cc) 0) as [Hlt | Hge].
  - intros H. inversion H. subst. left. auto.
  - destruct (Z.gtb_spec (strcmp (entry table (midpoint s e)) cc) 0) as [Hgt | Hle].
    + intros H. inversion H. subst. right. repeat split; auto. lia.
    + discriminate.
Qed.

Lemma loop_body_Found s e :
  loop_body table cc s e = Found -> strcmp (entry table (midpoint s e)) cc = 0%Z.
Proof.
  unfold loop_body.
  destruct (Z.ltb_spec (strcmp (entry table (midpoint s e)) cc) 0) as [Hlt | Hge];
    [discriminate |].
  destruct (Z.gtb_spec (strcmp (entry table (midpoint s e)) cc) 0) as [Hgt | Hle];
    [discriminate |].
  intros _. lia.
Qed.

(** Every iteration at least halves the interval. *)
Lemma loop_body_halves s e s' e' :
  s < e -> loop_body table cc s e = Next s' e' -> e' - s' <= (e - s) / 2.
Proof.
  intros Hlt Hb. pose proof (midpoint_bounds s e Hlt) as Hm.
  destruct (loop_body_Next s e s' e' Hb) as [(-> & -> & _) | (-> & -> & _)]; lia.
Qed.

Lemma loop_body_decreases s e s' e' :
  s < e -> loop_body table cc s e = Next s' e' -> e' - s' < e - s.
Proof.
  intros Hlt Hb. pose proof (loop_body_halves s e s' e' Hlt Hb).
  pose proof (Nat.div_lt (e - s) 2 ltac:(lia) ltac:(lia)). lia.
Qed.

(** The bounds never leave the interval they start in, so no index
    exceeds the number of rows. *)
Lemma loop_body_in_range s e s' e' :
  s < e -> loop_body table cc s e = Next s' e' -> s <= s' /\ s' <= e' /\ e' <= e.
Proof.
  intros Hlt Hb. pose proof (midpoint_bounds s e Hlt) as Hm.
  destruct (loop_body_Next s e s' e' Hb) as [(-> & -> & _) | (-> & -> & _)]; lia.
Qed.

(** The loop, unfolded once. *)
Lemma lookup_loop_once s e valid :
  lookup_loop table cc s e valid =
  if (s <? e)%nat then
    match loop_body table cc s e with
    | Next s' e' => lookup_loop table cc s' e' valid
    | Found => 1%Z
    end
  else valid.
Proof.
  funelim (lookup_loop table cc s e valid).
  - destruct (Nat.ltb_spec s e); [lia | reflexivity].
  - destruct (Nat.ltb_spec s e); [| lia]. now rewrite Hb.
  - destruct (Nat.ltb_spec s e); [| lia]. now rewrite e1.
Qed.

End LookupFacts.

Section LookupCorrect.

Variable table : list string.
Variable cc : string.

Lemma strcmp_eq_r a b c : strcmp b c = 0%Z -> strcmp a b = strcmp a c.
Proof.
  intros H. rewrite (strcmp_antisym b a), (strcmp_antisym c a).
  f_equal. now apply strcmp_eq_l.
Qed.

(** The loop either leaves [valid] alone or sets it to 1, and it sets it
    only at a row equal to [cc] inside the bounds. *)
Lemma lookup_loop_result n : forall s e valid,
  e - s <= n ->
  lookup_loop table cc s e valid = valid \/
  (lookup_loop table cc s e valid = 1%Z /\
   exists k, s <= k < e /\ strcmp (entry table k) cc = 0%Z).
Proof.
  induction n as [| n IH]; intros s e valid Hn; rewrite lookup_loop_once.
  - destruct (Nat.ltb_spec s e); [lia | now left].
  - destruct (Nat.ltb_spec s e) as [Hlt | Hge]; [| now left].
    destruct (loop_body table cc s e) as [s' e' |] eqn:Hb.
    + pose proof (loop_body_decreases table cc s e s' e' Hlt Hb) as Hd.
      pose proof (loop_body_in_range table cc s e s' e' Hlt Hb) as Hr.
      destruct (IH s' e' valid ltac:(lia)) as [H | [H (k & Hk & Hc)]].
      * now left.
      * right. split; [exact H |]. exists k. split; [lia | exact Hc].
    + right. split; [reflexivity |]. exists (midpoint s e).
      split; [apply (midpoint_bounds s e Hlt) |].
      now apply loop_body_Found.
Qed.

(** In an ascending table the loop never discards the row equal to [cc]. *)
Lemma lookup_loop_hit n : sorted table -> forall s e valid k,
  e - s <= n -> e <= List.length table -> s <= k < e ->
  strcmp (entry table k) cc = 0%Z ->
  lookup_loop table cc s e valid = 1%Z.
Proof.
  intros Hs. induction n as [| n IH]; intros s e valid k Hn He Hk Hc;
    [lia |].
  rewrite lookup_loop_once.
  destruct (Nat.ltb_spec s e) as [Hlt | Hge]; [| lia].
  destruct (loop_body table cc s e) as [s' e' |] eqn:Hb; [| reflexivity].
  pose proof (loop_body_decreases table cc s e s' e' Hlt Hb) as Hd.
  pose proof (midpoint_bounds s e Hlt) as Hm.
  apply IH with k; try lia.
  - destruct (loop_body_Next table cc s e s' e' Hb) as [(-> & -> & _) | (-> & -> & _)]; lia.
  - destruct (loop_body_Next table cc s e s' e' Hb)
      as [(-> & -> & Hcmp) | (-> & -> & Hcmp)].
    + (* the row at the midpoint is below [cc]: row [k] lies after it *)
      assert (midpoint s e < k); [| lia].
      destruct (Nat.lt_trichotomy (midpoint s e) k) as [H | [H | H]];
        [exact H | rewrite H in Hcmp; lia |].
      specialize (Hs k (midpoint s e) ltac:(lia)).
      rewrite (strcmp_eq_l _ _ (entry table (midpoint s e)) Hc) in Hs.
      rewrite (strcmp_antisym (entry table (midpoint s e)) cc) in Hs. lia.
    + (* the row at the midpoint is above [cc]: row [k] lies before it *)
      assert (k < midpoint s e); [| lia].
      destruct (Nat.lt_trichotomy k (midpoint s e)) as [H | [H | H]];
        [exact H | rewrite <- H in Hcmp; lia |].
      specialize (Hs (midpoint s e) k ltac:(lia)).
      rewrite (strcmp_eq_r (entry table (midpoint s e)) _ _ Hc) in Hs. lia.
Qed.

Lemma GS1_LINTER_LOOKUP_hit valid :
  sorted table -> has_row table cc ->
  GS1_LINTER_LOOKUP table cc valid = 1%Z.
Proof.
  intros Hs (k & Hk & Hc). unfold GS1_LINTER_LOOKUP.
  apply (lookup_loop_hit (List.length table) Hs) with k;
    [lia | lia | lia | exact Hc].
Qed.

Lemma GS1_LINTER_LOOKUP_result valid :
  GS1_LINTER_LOOKUP table cc valid = valid \/
  (GS1_LINTER_LOOKUP table cc valid = 1%Z /\ has_row table cc).
Proof.
  unfold GS1_LINTER_LOOKUP.
  destruct (lookup_loop_result (List.length table) 0
              (List.length table) valid ltac:(lia))
    as [H | [H (k & Hk & Hc)]]; [now left | right].
  split; [exact H |]. exists k. split; [lia | exact Hc].
Qed.

Lemma GS1_LINTER_LOOKUP_miss valid :
  ~ has_row table cc -> GS1_LINTER_LOOKUP table cc valid = valid.
Proof.
  intros Hno.
  destruct (GS1_LINTER_LOOKUP_result valid) as [H | [_ H]];
    [exact H | contradiction].
Qed.

Lemma linear_lookup_hit valid :
  has_row table cc -> linear_lookup table cc valid = 1%Z.
Proof.
  intros (k & Hk & Hc). revert k Hk Hc. unfold entry.
  induction table as [| t rest IH]; intros k Hk Hc; simpl in *; [lia |].
  destruct k as [| k].
  - now rewrite Hc.
  - destruct (strcmp t cc =? 0)%Z; [reflexivity |].
    apply (IH k); [lia | exact Hc].
Qed.

Lemma linear_lookup_miss valid :
  ~ has_row table cc -> linear_lookup table cc valid = valid.
Proof.
  unfold has_row, entry.
  induction table as [| t rest IH]; intros Hno; simpl; [reflexivity |].
  destruct (Z.eqb_spec (strcmp t cc) 0) as [E | E].
  - exfalso. apply Hno. exists 0. simpl. split; [lia | exact E].
  - apply IH. intros (k & Hk & Hc). apply Hno. exists (S k).
    simpl. split; [lia | exact Hc].
Qed.

Lemma linear_lookup_result valid :
  linear_lookup table cc valid = valid \/
  (linear_lookup table cc valid = 1%Z /\ has_row table cc).
Proof.
  unfold has_row, entry.
  induction table as [| t rest IH]; simpl; [now left |].
  destruct (Z.eqb_spec (strcmp t cc) 0) as [E | E].
  - right. split; [reflexivity |]. exists 0. simpl. split; [lia | exact E].
  - destruct IH as [H | [H (k & Hk & Hc)]]; [now left | right].
    split; [exact H |]. exists (S k). simpl. split; [lia | exact Hc].
Qed.

(** Rows are C strings, so a row equal to [cc] is the string [cc]
    denotes. *)
Lemma has_row_In :
  forallb nul_free table = true ->
  has_row table cc <-> In (c_str cc) table.
Proof.
  intros Hnf. rewrite forallb_forall in Hnf. unfold has_row, entry. split.
  - intros (k & Hk & Hc). apply strcmp_eq_iff in Hc.
    rewrite <- Hc, nul_free_c_str by (apply Hnf, nth_In, Hk).
    now apply nth_In.
  - intros Hin. destruct (In_nth _ _ EmptyString Hin) as (k & Hk & E).
    exists k. split; [exact Hk |]. rewrite E.
    rewrite strcmp_c_str_l. apply strcmp_refl.
Qed.

End LookupCorrect.

(** ** The linter's two paths *)

Section LinterFacts.

Variable lookup : string -> Z -> Z.
Variable not_in_set : gs1_lint_err_t.

Lemma perform_app ws1 ws2 m :
  perform (ws1 ++ ws2) m = perform ws2 (perform ws1 m).
Proof. apply fold_left_app. Qed.


Lemma store_if_nonnull_perform p v m :
  store_if_nonnull p v m =
  Return tt (perform (match p with None => [] | Some l => [(l, v)] end) m).
Proof. destruct p; reflexivity. Qed.

(** [if (valid) return GS1_LINTER_OK;] *)
Lemma gs1_lint_valid data err_pos err_len m :
  lookup data 0%Z <> 0%Z ->
  gs1_lint lookup not_in_set data err_pos err_len m = Return GS1_LINTER_OK m.
Proof.
  intros H. unfold gs1_lint.
  destruct (Z.eqb_spec (lookup data 0%Z) 0); [contradiction | reflexivity].
Qed.

(** The failure path. *)
Lemma gs1_lint_invalid data err_pos err_len m :
  lookup data 0%Z = 0%Z ->
  gs1_lint lookup not_in_set data err_pos err_len m =
  Return not_in_set (perform (span_writes data err_pos err_len) m).
Proof.
  intros H. unfold gs1_lint, span_writes. rewrite H. simpl.
  unfold bind. rewrite !store_if_nonnull_perform.
  now rewrite perform_app.
Qed.

(** Whatever the lookup, the linter takes one of the two paths. *)
Lemma gs1_lint_cases data err_pos err_len m :
  (lookup data 0%Z <> 0%Z /\
   gs1_lint lookup not_in_set data err_pos err_len m
   = Return GS1_LINTER_OK m) \/
  (lookup data 0%Z = 0%Z /\
   gs1_lint lookup not_in_set data err_pos err_len m
   = Return not_in_set (perform (span_writes data err_pos err_len) m)).
Proof.
  destruct (Z.eq_dec (lookup data 0%Z) 0) as [E | E].
  - right. split; [exact E | now apply gs1_lint_invalid].
  - left. split; [exact E | now apply gs1_lint_valid].
Qed.

End LinterFacts.

(** ** The default lookup decides membership *)

Lemma well_formed_parts width table :
  well_formed width table = true ->
  forallb nul_free table = true /\
  Forall (fun t => String.length t = width) table /\
  sorted table.
Proof.
  unfold well_formed. intros H. apply andb_true_iff in H.
  destruct H as [Hrows Hasc]. rewrite forallb_forall in Hrows.
  split; [| split].
  - apply forallb_forall. intros t Ht.
    specialize (Hrows t Ht). now apply andb_true_iff in Hrows.
  - apply Forall_forall. intros t Ht.
    specialize (Hrows t Ht). apply andb_true_iff in Hrows.
    now apply Nat.eqb_eq.
  - now apply ascending_sorted.
Qed.

Lemma binary_search_decides width table :
  well_formed width table = true ->
  decides_membership table (GS1_LINTER_LOOKUP table).
Proof.
  intros Hwf cc. destruct (well_formed_parts width table Hwf) as (Hnf & _ & Hs).
  rewrite <- (has_row_In table cc Hnf). split.
  - intros Hv.
    destruct (GS1_LINTER_LOOKUP_result table cc 0) as [H | [_ H]];
      [contradiction | exact H].
  - intros Hrow. rewrite (GS1_LINTER_LOOKUP_hit table cc 0 Hs Hrow). discriminate.
Qed.

Lemma linear_lookup_decides table :
  forallb nul_free table = true ->
  decides_membership table (linear_lookup table).
Proof.
  intros Hnf cc. rewrite <- (has_row_In table cc Hnf). split.
  - intros Hv.
    destruct (linear_lookup_result table cc 0) as [H | [_ H]];
      [contradiction | exact H].
  - intros Hrow. rewrite (linear_lookup_hit table cc 0 Hrow). discriminate.
Qed.

(** Any instance of the pattern over a well-formed table accepts exactly
    the strings of its table. *)
Lemma gs1_lint_decides width table not_in_set data err_pos err_len m :
  well_formed width table = true ->
  (In (c_str data) table ->
   gs1_lint (GS1_LINTER_LOOKUP table) not_in_set data err_pos err_len m
   = Return GS1_LINTER_OK m) /\
  (~ In (c_str data) table ->
   gs1_lint (GS1_LINTER_LOOKUP table) not_in_set data err_pos err_len m
   = Return not_in_set (perform (span_writes data err_pos err_len) m)).
Proof.
  intros Hwf. pose proof (binary_search_decides width table Hwf data) as Hd.
  split; intros H.
  - apply gs1_lint_valid. now apply Hd.
  - apply gs1_lint_invalid.
    destruct (Z.eq_dec (GS1_LINTER_LOOKUP table data 0%Z) 0) as [E | E];
      [exact E | now apply Hd in E].
Qed.

(** ** The ISO 4217 instance *)

Lemma iso4217_checked : well_formed 3 iso4217 = true.
Proof. vm_compute. reflexivity. Qed.

Lemma gs1_lint_iso4217_decides data err_pos err_len m :
  (In (c_str data) iso4217 ->
   gs1_lint_iso4217 data err_pos err_len m = Return GS1_LINTER_OK m) /\
  (~ In (c_str data) iso4217 ->
   gs1_lint_iso4217 data err_pos err_len m
   = Return GS1_LINTER_NOT_ISO4217
       (perform (span_writes data err_pos err_len) m)).
Proof.
  exact (gs1_lint_decides 3 iso4217 GS1_LINTER_NOT_ISO4217
           data err_pos err_len m iso4217_checked).
Qed.

(** ** The ISO 3166 instance *)

Lemma absent_by_scan (x : string) (l : list string) :
  existsb (String.eqb x) l = false -> ~ In x l.
Proof.
  intros H Hin. assert (existsb (String.eqb x) l = true); [| congruence].
  apply existsb_exists. exists x. split; [exact Hin | apply String.eqb_refl].
Qed.

Lemma iso3166_checked : well_formed 3 iso3166 = true.
Proof. vm_compute. reflexivity. Qed.

Lemma iso3166_lookup_decides :
  decides_membership iso3166 GS1_LINTER_ISO3166_LOOKUP.
Proof. exact (binary_search_decides 3 iso3166 iso3166_checked). Qed.

Lemma iso3166_lookup_absent data :
  ~ In (c_str data) iso3166 -> GS1_LINTER_ISO3166_LOOKUP data 0%Z = 0%Z.
Proof.
  intros H. destruct (Z.eq_dec (GS1_LINTER_ISO3166_LOOKUP data 0%Z) 0)
    as [E | E]; [exact E |].
  now apply iso3166_lookup_decides in E.
Qed.

(** C1 (completeness): every code of the [iso3166] table, presented
    verbatim, is accepted: [gs1_lint_iso3166] returns [GS1_LINTER_OK],
    whatever the out-parameters and the memory. *)
Theorem iso3166_completeness (code : string) :
  In code iso3166 ->
  forall err_pos err_len m,
    result_code (gs1_lint_iso3166 code err_pos err_len m)
    = Some GS1_LINTER_OK.
Proof.
  intros Hin err_pos err_len m. unfold gs1_lint_iso3166.
  rewrite gs1_lint_valid; [reflexivity |].
  apply iso3166_lookup_decides.
  destruct (well_formed_parts 3 iso3166 iso3166_checked) as (Hnf & _ & _).
  rewrite forallb_forall in Hnf. now rewrite nul_free_c_str by auto.
Qed.

Lemma iso3166_completeness_witness :
  In "008" iso3166 /\
  result_code (gs1_lint_iso3166 "008" (Some 1) (Some 2)
                 (Memory (fun _ => 0) []))
  = Some GS1_LINTER_OK.
Proof.
  assert (H : In "008" iso3166) by (simpl; auto).
  split; [exact H | apply (iso3166_completeness "008" H)].
Defined.

(** C2 (soundness): a string that is not in the [iso3166] table (the
    empty string, a string of another length, one with other characters,
    a neighbour of a listed code) is rejected with
    [GS1_LINTER_NOT_ISO3166], never [GS1_LINTER_OK].  The string is the
    one [data] denotes, [c_str data]. *)
Theorem iso3166_soundness (data : string) :
  ~ In (c_str data) iso3166 ->
  forall err_pos err_len m,
    result_code (gs1_lint_iso3166 data err_pos err_len m)
    = Some GS1_LINTER_NOT_ISO3166.
Proof.
  intros Hout err_pos err_len m. unfold gs1_lint_iso3166.
  rewrite gs1_lint_invalid; [reflexivity |].
  now apply iso3166_lookup_absent.
Qed.

Lemma iso3166_soundness_witness :
  ~ In (c_str "009") iso3166 /\
  result_code (gs1_lint_iso3166 "009" (Some 1) (Some 2)
                 (Memory (fun _ => 0) []))
  = Some GS1_LINTER_NOT_ISO3166.
Proof.
  assert (H : ~ In (c_str "009") iso3166)
    by (apply absent_by_scan; vm_compute; reflexivity).
  split; [exact H | apply (iso3166_soundness "009" H)].
Defined.

(** C3 (exact error span): when [gs1_lint_iso3166] fails and both
    out-parameters are given, the writes it performs are [*err_pos = 0]
    followed by [*err_len = strlen(data)], the whole input and never a part
    of it; [*err_len] then holds the length of the string [data] denotes,
    which is 0 for the empty string.  ([*err_pos] holds 0 afterwards unless
    the caller passed the same object for both.) *)
Theorem iso3166_error_span (data : string) (p q : loc) (m m' : memory) :
  gs1_lint_iso3166 data (Some p) (Some q) m
  = Return GS1_LINTER_NOT_ISO3166 m' ->
  writes m' = writes m ++ [(p, 0); (q, strlen data)] /\
  contents m' q = strlen data /\
  (p <> q -> contents m' p = 0) /\
  strlen data = String.length (c_str data) /\
  (c_str data = "" -> writes m' = writes m ++ [(p, 0); (q, 0)]).
Proof.
  intros Hrun. unfold gs1_lint_iso3166 in Hrun.
  destruct (gs1_lint_cases GS1_LINTER_ISO3166_LOOKUP GS1_LINTER_NOT_ISO3166
              data (Some p) (Some q) m) as [[_ H] | [_ H]];
    rewrite H in Hrun; [discriminate |].
  injection Hrun as <-. simpl. rewrite <- app_assoc. simpl.
  rewrite Nat.eqb_refl. repeat split.
  - intros Hpq. apply Nat.eqb_neq in Hpq. now rewrite Hpq, Nat.eqb_refl.
  - apply strlen_c_str.
  - intros E. now rewrite strlen_c_str, E.
Qed.

Lemma iso3166_error_span_witness :
  gs1_lint_iso3166 "" (Some 1) (Some 2) fresh_memory
  = Return GS1_LINTER_NOT_ISO3166 (write 2 0 (write 1 0 fresh_memory)) /\
  writes (write 2 0 (write 1 0 fresh_memory)) = [(1, 0); (2, 0)] /\
  contents (write 2 0 (write 1 0 fresh_memory)) 2 = 0.
Proof.
  assert (H : gs1_lint_iso3166 "" (Some 1) (Some 2) fresh_memory
              = Return GS1_LINTER_NOT_ISO3166
                  (write 2 0 (write 1 0 fresh_memory)))
    by (vm_compute; reflexivity).
  split; [exact H |].
  destruct (iso3166_error_span "" 1 2 fresh_memory _ H) as (Hw & Hq & _).
  split; [exact Hw | exact Hq].
Defined.

(** C4 (well-formed Reference Set): the [iso3166] table has 249 rows, each
    a string of exactly 3 characters; the rows are in strict ascending
    byte order, row [i] below row [j] under [strcmp] whenever [i < j]; and
    no row occurs twice. *)
Theorem iso3166_table_well_formed :
  List.length iso3166 = 249 /\
  Forall (fun t => String.length t = 3 /\ nul_free t = true) iso3166 /\
  sorted iso3166 /\
  NoDup iso3166.
Proof.
  destruct (well_formed_parts 3 iso3166 iso3166_checked) as (Hnf & Hw & Hs).
  split; [reflexivity |]. split; [| split].
  - rewrite forallb_forall in Hnf. rewrite Forall_forall in *.
    intros t Ht. split; auto.
  - exact Hs.
  - now apply sorted_NoDup.
Qed.

(** C10 (success writes nothing): when [gs1_lint_iso3166] returns
    [GS1_LINTER_OK] the memory is the one it was called in: no object has
    changed and no write was made, even through non-[NULL]
    out-parameters. *)
Theorem iso3166_success_leaves_memory (data : string) (err_pos err_len : ptr)
        (m m' : memory) :
  gs1_lint_iso3166 data err_pos err_len m = Return GS1_LINTER_OK m' ->
  m' = m.
Proof.
  intros Hrun. unfold gs1_lint_iso3166 in Hrun.
  destruct (gs1_lint_cases GS1_LINTER_ISO3166_LOOKUP GS1_LINTER_NOT_ISO3166
              data err_pos err_len m) as [[_ H] | [_ H]];
    rewrite H in Hrun; [| discriminate].
  now injection Hrun as <-.
Qed.

Lemma iso3166_success_leaves_memory_witness :
  gs1_lint_iso3166 "004" (Some 1) (Some 2) fresh_memory
  = Return GS1_LINTER_OK fresh_memory /\
  fresh_memory = fresh_memory.
Proof.
  assert (H : gs1_lint_iso3166 "004" (Some 1) (Some 2) fresh_memory
              = Return GS1_LINTER_OK fresh_memory)
    by (vm_compute; reflexivity).
  split; [exact H |].
  exact (iso3166_success_leaves_memory "004" (Some 1) (Some 2)
           fresh_memory fresh_memory H).
Defined.

(** C9 (optional out-parameters): the result code depends on [data]
    alone.  Whatever [err_pos] and [err_len] are, [NULL] or not, the call
    returns that code without a fault, and it writes only through the
    pointers that are not [NULL]; with both [NULL] the memory is
    unchanged. *)
Theorem iso3166_null_out_params (data : string) :
  exists code,
    (forall err_pos err_len m,
        gs1_lint_iso3166 data err_pos err_len m
        = Return code (memory_after code data err_pos err_len m)) /\
    (forall m, gs1_lint_iso3166 data NULL NULL m = Return code m) /\
    (forall q m,
        gs1_lint_iso3166 data NULL (Some q) m
        = Return code (memory_after code data NULL (Some q) m) /\
        writes (memory_after code data NULL (Some q) m)
        = writes m ++ match code with
                      | GS1_LINTER_OK => []
                      | _ => [(q, strlen data)]
                      end) /\
    (forall p m,
        gs1_lint_iso3166 data (Some p) NULL m
        = Return code (memory_after code data (Some p) NULL m) /\
        writes (memory_after code data (Some p) NULL m)
        = writes m ++ match code with
                      | GS1_LINTER_OK => []
                      | _ => [(p, 0)]
                      end).
Proof.
  assert (Hall : exists code, forall err_pos err_len m,
               gs1_lint_iso3166 data err_pos err_len m
               = Return code (memory_after code data err_pos err_len m)).
  { destruct (Z.eq_dec (GS1_LINTER_ISO3166_LOOKUP data 0%Z) 0) as [E | E].
    - exists GS1_LINTER_NOT_ISO3166. intros. now apply gs1_lint_invalid.
    - exists GS1_LINTER_OK. intros. now apply gs1_lint_valid. }
  destruct Hall as [code Hall]. exists code.
  split; [exact Hall |]. split; [| split].
  - intros m. rewrite Hall. now destruct code.
  - intros q m. split; [apply Hall |].
    destruct code; simpl; now rewrite ?app_nil_r.
  - intros p m. split; [apply Hall |].
    destruct code; simpl; now rewrite ?app_nil_r.
Qed.

(** ** Termination of the search *)

Lemma loop_terminates table cc : forall n s e valid,
  e - s < 2 ^ n ->
  exists k s' e' v,
    k <= S n /\
    Nat.iter k (step table cc) (Running s e valid) = Exited s' e' v /\
    loop_exit table cc valid s' e' v /\
    lookup_loop table cc s e valid = v.
Proof.
  induction n as [| n IH]; intros s e valid Hn;
    rewrite lookup_loop_once;
    destruct (Nat.ltb_spec s e) as [Hlt | Hge].
  - simpl in Hn. lia.
  - exists 1, s, e, valid. simpl.
    destruct (Nat.ltb_spec s e); [lia |].
    repeat split; [lia | left; split; [lia | reflexivity]].
  - destruct (loop_body table cc s e) as [s1 e1 |] eqn:Hb.
    + pose proof (loop_body_halves table cc s e s1 e1 Hlt Hb) as Hh.
      assert (Hsmall : e1 - s1 < 2 ^ n).
      { apply Nat.le_lt_trans with ((e - s) / 2); [exact Hh |].
        apply Nat.Div0.div_lt_upper_bound.
        now rewrite Nat.pow_succ_r' in Hn. }
      destruct (IH s1 e1 valid Hsmall) as (k & s' & e' & v & Hk & Hrun & Hex & Hv).
      exists (S k), s', e', v. repeat split; [lia | | exact Hex | exact Hv].
      rewrite Nat.iter_succ_r. simpl.
      destruct (Nat.ltb_spec s e); [| lia]. now rewrite Hb.
    + exists 1, s, e, 1%Z. simpl.
      destruct (Nat.ltb_spec s e); [| lia]. rewrite Hb.
      repeat split; [lia |]. right. repeat split; [exact Hlt |].
      now apply loop_body_Found.
  - exists 1, s, e, valid. simpl.
    destruct (Nat.ltb_spec s e); [lia |].
    repeat split; [lia | left; split; [lia | reflexivity]].
Qed.

(** C5 (termination): for every input the search loop of
    [gs1_lint_iso3166] terminates.  Each iteration that continues strictly
    shrinks the interval [e - s] (it at least halves it); started at
    [s = 0], [e = 249], the loop has exited after at most 8 iterations (9
    evaluations of its condition), either with the bounds crossed and
    [valid] untouched or at an exact match with [valid = 1]; the value of
    [valid] it leaves is the one the lookup yields. *)
Theorem iso3166_lookup_terminates (data : string) :
  (forall s e s' e',
      s < e -> loop_body iso3166 data s e = Next s' e' ->
      e' - s' < e - s /\ e' - s' <= (e - s) / 2) /\
  (exists k s' e' v,
      k <= 9 /\
      Nat.iter k (step iso3166 data) (Running 0 (List.length iso3166) 0%Z)
      = Exited s' e' v /\
      loop_exit iso3166 data 0%Z s' e' v /\
      GS1_LINTER_ISO3166_LOOKUP data 0%Z = v).
Proof.
  split.
  - intros s e s' e' Hlt Hb. split.
    + now apply (loop_body_decreases iso3166 data s e).
    + now apply (loop_body_halves iso3166 data s e).
  - apply (loop_terminates iso3166 data 8 0 (List.length iso3166) 0%Z).
    simpl. lia.
Qed.

Lemma iso3166_lookup_terminates_witness :
  0 < 249 /\
  loop_body iso3166 "500" 0 249 = Next 125 249 /\
  249 - 125 < 249 - 0 /\ 249 - 125 <= (249 - 0) / 2.
Proof.
  assert (H1 : 0 < 249) by lia.
  assert (H2 : loop_body iso3166 "500" 0 249 = Next 125 249)
    by (vm_compute; reflexivity).
  split; [exact H1 |]. split; [exact H2 |].
  exact (proj1 (iso3166_lookup_terminates "500") 0 249 125 249 H1 H2).
Defined.

(** ** Independence of the lookup strategy *)

Lemma gs1_lint_ext lookup1 lookup2 not_in_set data err_pos err_len m :
  (lookup1 data 0%Z = 0%Z <-> lookup2 data 0%Z = 0%Z) ->
  gs1_lint lookup1 not_in_set data err_pos err_len m
  = gs1_lint lookup2 not_in_set data err_pos err_len m.
Proof.
  intros Hiff.
  destruct (gs1_lint_cases lookup1 not_in_set data err_pos err_len m)
    as [[H1 ->] | [H1 ->]];
  destruct (gs1_lint_cases lookup2 not_in_set data err_pos err_len m)
    as [[H2 ->] | [H2 ->]]; try reflexivity; tauto.
Qed.

Lemma binary_search_finds_rows table cc :
  sorted table ->
  GS1_LINTER_LOOKUP table cc 0%Z <> 0%Z <-> has_row table cc.
Proof.
  intros Hs. split.
  - intros Hv. destruct (GS1_LINTER_LOOKUP_result table cc 0) as [H | [_ H]];
      [contradiction | exact H].
  - intros Hrow. rewrite (GS1_LINTER_LOOKUP_hit table cc 0 Hs Hrow).
    discriminate.
Qed.

Lemma linear_lookup_finds_rows table cc :
  linear_lookup table cc 0%Z <> 0%Z <-> has_row table cc.
Proof.
  split.
  - intros Hv. destruct (linear_lookup_result table cc 0) as [H | [_ H]];
      [contradiction | exact H].
  - intros Hrow. rewrite (linear_lookup_hit table cc 0 Hrow). discriminate.
Qed.

(** C6 (independence of the lookup strategy): over one ascending table,
    the linter built on the binary search and the linter built on a linear
    scan of the same table have the same outcome for every input, in every
    memory and for every choice of out-parameters: the same result code and
    the same writes.  The same holds for any replacement lookup that sets
    [valid] exactly when a row of the table equals the input. *)
Theorem lookup_strategy_independence (table : list string) :
  ascending table = true ->
  (forall not_in_set data err_pos err_len m,
      gs1_lint (GS1_LINTER_LOOKUP table) not_in_set data err_pos err_len m
      = gs1_lint (linear_lookup table) not_in_set data err_pos err_len m) /\
  (forall custom,
      (forall cc, custom cc 0%Z <> 0%Z <-> has_row table cc) ->
      forall not_in_set data err_pos err_len m,
        gs1_lint (GS1_LINTER_LOOKUP table) not_in_set data err_pos err_len m
        = gs1_lint custom not_in_set data err_pos err_len m).
Proof.
  intros Hasc. apply ascending_sorted in Hasc.
  assert (Hgen : forall custom,
             (forall cc, custom cc 0%Z <> 0%Z <-> has_row table cc) ->
             forall not_in_set data err_pos err_len m,
               gs1_lint (GS1_LINTER_LOOKUP table) not_in_set
                        data err_pos err_len m
               = gs1_lint custom not_in_set data err_pos err_len m).
  { intros custom Hc not_in_set data err_pos err_len m.
    apply gs1_lint_ext.
    pose proof (binary_search_finds_rows table data Hasc) as Hb.
    specialize (Hc data).
    destruct (Z.eq_dec (GS1_LINTER_LOOKUP table data 0%Z) 0),
             (Z.eq_dec (custom data 0%Z) 0); tauto. }
  split; [| exact Hgen].
  apply Hgen. intros cc. apply linear_lookup_finds_rows.
Qed.

Lemma lookup_strategy_independence_witness :
  ascending iso3166 = true /\
  gs1_lint (GS1_LINTER_LOOKUP iso3166) GS1_LINTER_NOT_ISO3166
           "0080" (Some 1) (Some 2) fresh_memory
  = gs1_lint (linear_lookup iso3166) GS1_LINTER_NOT_ISO3166
             "0080" (Some 1) (Some 2) fresh_memory.
Proof.
  assert (H : ascending iso3166 = true) by (vm_compute; reflexivity).
  split; [exact H |].
  exact (proj1 (lookup_strategy_independence iso3166 H)
           GS1_LINTER_NOT_ISO3166 "0080" (Some 1) (Some 2) fresh_memory).
Defined.


(** ** Determinism *)

Lemma span_writes_targets data err_pos err_len l v :
  In (l, v) (span_writes data err_pos err_len) ->
  err_pos = Some l \/ err_len = Some l.
Proof.
  unfold span_writes.
  destruct err_pos as [p |], err_len as [q |]; simpl;
    intuition congruence.
Qed.

Lemma span_writes_idempotent data err_pos err_len m l :
  contents (perform (span_writes data err_pos err_len)
              (perform (span_writes data err_pos err_len) m)) l
  = contents (perform (span_writes data err_pos err_len) m) l.
Proof.
  unfold span_writes.
  destruct err_pos as [p |], err_len as [q |]; simpl; try reflexivity;
    repeat match goal with
           | |- context [l =? ?x] => destruct (l =? x)
           end; reflexivity.
Qed.

Lemma span_writes_values data err_pos err_len err_pos' err_len' :
  is_null err_pos' = is_null err_pos ->
  is_null err_len' = is_null err_len ->
  map snd (span_writes data err_pos' err_len')
  = map snd (span_writes data err_pos err_len).
Proof.
  unfold span_writes.
  destruct err_pos, err_len, err_pos', err_len'; simpl;
    intros; try discriminate; reflexivity.
Qed.

(** C8 (determinism, no hidden state): the outcome of
    [gs1_lint_iso3166] is fixed by its arguments.  For given [data] and
    out-parameters there are one result code and one list of writes that
    the call produces in every memory, so nothing is read from the memory
    and nothing is carried from one call to the next; the writes go
    through [err_pos] and [err_len] only; calling again leaves every object
    as the first call left it; and two calls that agree on [data] and on
    which out-parameters are [NULL] return the same code and write the same
    values. *)
Theorem iso3166_deterministic (data : string) (err_pos err_len : ptr) :
  exists code ws,
    (forall m,
        gs1_lint_iso3166 data err_pos err_len m
        = Return code (perform ws m)) /\
    (forall l v, In (l, v) ws -> err_pos = Some l \/ err_len = Some l) /\
    (forall m l,
        contents (perform ws (perform ws m)) l = contents (perform ws m) l) /\
    (forall err_pos' err_len',
        is_null err_pos' = is_null err_pos ->
        is_null err_len' = is_null err_len ->
        exists ws',
          (forall m,
              gs1_lint_iso3166 data err_pos' err_len' m
              = Return code (perform ws' m)) /\
          map snd ws' = map snd ws).
Proof.
  destruct (Z.eq_dec (GS1_LINTER_ISO3166_LOOKUP data 0%Z) 0) as [E | E].
  - exists GS1_LINTER_NOT_ISO3166, (span_writes data err_pos err_len).
    split; [| split; [| split]].
    + intros m. now apply gs1_lint_invalid.
    + apply span_writes_targets.
    + apply span_writes_idempotent.
    + intros err_pos' err_len' Hp Hl.
      exists (span_writes data err_pos' err_len'). split.
      * intros m. now apply gs1_lint_invalid.
      * now apply span_writes_values.
  - exists GS1_LINTER_OK, []. split; [| split; [| split]].
    + intros m. now apply gs1_lint_valid.
    + intros l v [].
    + reflexivity.
    + intros err_pos' err_len' _ _. exists []. split; [| reflexivity].
      intros m. now apply gs1_lint_valid.
Qed.

Lemma iso3166_deterministic_witness :
  is_null (Some 5) = is_null (Some 1) /\
  is_null NULL = is_null NULL /\
  exists code ws ws',
    gs1_lint_iso3166 "009" (Some 1) NULL fresh_memory
    = Return code (perform ws fresh_memory) /\
    gs1_lint_iso3166 "009" (Some 5) NULL (perform ws fresh_memory)
    = Return code (perform ws' (perform ws fresh_memory)) /\
    map snd ws' = map snd ws.
Proof.
  assert (H1 : is_null (Some 5) = is_null (Some 1)) by reflexivity.
  assert (H2 : is_null NULL = is_null NULL) by reflexivity.
  split; [exact H1 |]. split; [exact H2 |].
  destruct (iso3166_deterministic "009" (Some 1) NULL)
    as (code & ws & Hrun & _ & _ & Hsame).
  destruct (Hsame (Some 5) NULL H1 H2) as (ws' & Hrun' & Hvals).
  exists code, ws, ws'.
  split; [apply Hrun |]. split; [apply Hrun' | exact Hvals].
Defined.

(** ** The unit tests of the source, replayed *)

Example test_lint_iso3166 :
  forallb unit_test_fail
    [""; "0"; "00"; "000"; "0000"; "_894"; "894_"; "999"; "AAA"] = true /\
  forallb unit_test_num3 (seq 0 1000) = true /\
  map num3 [0; 4; 894; 999] = ["000"; "004"; "894"; "999"].
Proof. repeat split; vm_compute; reflexivity. Qed.

(* ===================================================================== *)
(** * Part III: further properties of the code                            *)
(* ===================================================================== *)

(** ** The linter skeleton, for any lookup *)

Lemma present_by_scan (x : string) (l : list string) :
  existsb (String.eqb x) l = true -> In x l.
Proof.
  intros H. apply existsb_exists in H. destruct H as (y & Hin & E).
  apply String.eqb_eq in E. now subst y.
Qed.

Lemma perform_frame ws : forall m l,
  (forall v, ~ In (l, v) ws) -> contents (perform ws m) l = contents m l.
Proof.
  induction ws as [| [l' v'] ws IH]; intros m l Hno; [reflexivity |].
  simpl. unfold perform in IH. rewrite IH.
  - simpl. destruct (Nat.eqb_spec l l') as [-> | _]; [| reflexivity].
    exfalso. apply (Hno v'). now left.
  - intros v Hin. apply (Hno v). now right.
Qed.

Lemma perform_writes ws : forall m, writes (perform ws m) = writes m ++ ws.
Proof.
  induction ws as [| [l v] ws IH]; intros m; simpl.
  - now rewrite app_nil_r.
  - unfold perform in IH. rewrite IH. simpl. now rewrite <- app_assoc.
Qed.

(** X3 (the skeleton shared by the linters, default or custom lookup):
    a call never faults and takes one of two paths.  If the lookup left
    [valid] non-zero it returns [GS1_LINTER_OK] and the memory is
    untouched.  Otherwise it returns the linter's failure code, the writes
    it adds are [*err_pos = 0] and [*err_len = strlen(data)] through the
    non-[NULL] pointers in that order, [*err_len] ends up holding the
    length, and every object that neither pointer designates keeps its
    value. *)
Theorem gs1_lint_outcome (lookup : string -> Z -> Z)
        (not_in_set : gs1_lint_err_t) (data : string)
        (err_pos err_len : ptr) (m : memory) :
  exists code m',
    gs1_lint lookup not_in_set data err_pos err_len m = Return code m' /\
    ((lookup data 0%Z <> 0%Z /\ code = GS1_LINTER_OK /\ m' = m) \/
     (lookup data 0%Z = 0%Z /\ code = not_in_set /\
      writes m' = writes m ++ span_writes data err_pos err_len /\
      (forall q, err_len = Some q -> contents m' q = strlen data) /\
      (forall l, ~ targets err_pos err_len l ->
                 contents m' l = contents m l))).
Proof.
  destruct (gs1_lint_cases lookup not_in_set data err_pos err_len m)
    as [[Hv H] | [Hv H]].
  - exists GS1_LINTER_OK, m. split; [exact H |]. left. auto.
  - exists not_in_set, (perform (span_writes data err_pos err_len) m).
    split; [exact H |]. right. split; [exact Hv |]. split; [reflexivity |].
    split; [apply perform_writes |]. split.
    + intros q ->. unfold span_writes.
      destruct err_pos as [p |]; simpl; now rewrite Nat.eqb_refl.
    + intros l Hl. apply perform_frame. intros v Hin. apply Hl.
      exact (span_writes_targets data err_pos err_len l v Hin).
Qed.

Lemma gs1_lint_outcome_witness :
  ~ targets (Some 1) (Some 2) 3 /\
  exists m',
    gs1_lint_iso4217 "999_" (Some 1) (Some 2) fresh_memory
    = Return GS1_LINTER_NOT_ISO4217 m' /\
    contents m' 2 = 4 /\ contents m' 3 = 7.
Proof.
  assert (Hfree : ~ targets (Some 1) (Some 2) 3)
    by (intros [H | H]; discriminate).
  split; [exact Hfree |].
  destruct (gs1_lint_outcome GS1_LINTER_ISO4217_LOOKUP GS1_LINTER_NOT_ISO4217
              "999_" (Some 1) (Some 2) fresh_memory)
    as (code & m' & Hrun & [(Hv & _) | (_ & -> & _ & Hlen & Hframe)]).
  - exfalso. apply Hv. vm_compute. reflexivity.
  - exists m'. split; [exact Hrun |]. split.
    + exact (Hlen 2 eq_refl).
    + exact (Hframe 3 Hfree).
Defined.

(** ** The search, for any table *)

(** X4 (no false acceptance, sorted table or not): the default lookup
    either leaves [valid] as it found it or sets it to 1, and it sets it
    only when some row of the table is, as a C string, the input.  A table
    out of order can make the search miss a row; it cannot make it accept
    a string the table does not list. *)
Theorem lookup_never_false_accepts (table : list string) (cc : string)
        (valid : Z) :
  (GS1_LINTER_LOOKUP table cc valid = valid \/
   GS1_LINTER_LOOKUP table cc valid = 1%Z) /\
  (GS1_LINTER_LOOKUP table cc valid <> valid ->
   exists t, In t table /\ c_str t = c_str cc).
Proof.
  destruct (GS1_LINTER_LOOKUP_result table cc valid)
    as [H | [H (k & Hk & Hc)]].
  - split; [now left | intros Hne; contradiction].
  - split; [now right |]. intros _. exists (entry table k). split.
    + now apply nth_In.
    + now apply strcmp_eq_iff.
Qed.

Lemma lookup_never_false_accepts_witness :
  GS1_LINTER_LOOKUP ["032"; "008"; "012"] "008" 0%Z <> 0%Z /\
  exists t, In t ["032"; "008"; "012"] /\ c_str t = c_str "008".
Proof.
  assert (H : GS1_LINTER_LOOKUP ["032"; "008"; "012"] "008" 0%Z <> 0%Z)
    by (vm_compute; discriminate).
  split; [exact H |].
  exact (proj2 (lookup_never_false_accepts ["032"; "008"; "012"] "008" 0%Z)
           H).
Defined.

Lemma step_Running table cc c s e v :
  step table cc c = Running s e v ->
  exists s0 e0,
    c = Running s0 e0 v /\ s0 < e0 /\ loop_body table cc s0 e0 = Next s e.
Proof.
  destruct c as [s0 e0 v0 | s0 e0 v0]; simpl; [| discriminate].
  destruct (Nat.ltb_spec s0 e0) as [Hlt | Hge]; [| discriminate].
  destruct (loop_body table cc s0 e0) as [s1 e1 |] eqn:Hb; [| discriminate].
  intros H. inversion H. subst. exists s0, e0. auto.
Qed.

(** X5 (array bounds): at every iteration the loop started by the lookup
    reaches, the bounds satisfy [s <= e <= number of rows], [valid] is
    still as it was on entry, and the row the next iteration reads,
    [table[s + (e - s) / 2]], exists: its index is below the number of
    rows. *)
Theorem lookup_reads_in_bounds (table : list string) (cc : string)
        (valid : Z) (k s e : nat) (v : Z) :
  Nat.iter k (step table cc) (Running 0 (List.length table) valid)
  = Running s e v ->
  s <= e <= List.length table /\
  v = valid /\
  (s < e -> s <= midpoint s e < e /\ midpoint s e < List.length table).
Proof.
  assert (Hinv : s <= e <= List.length table /\ v = valid ->
                 s <= e <= List.length table /\ v = valid /\
                 (s < e -> s <= midpoint s e < e /\
                           midpoint s e < List.length table)).
  { intros (Hb & Hv). split; [exact Hb |]. split; [exact Hv |].
    intros Hlt. pose proof (midpoint_bounds s e Hlt). lia. }
  intros Hrun. apply Hinv. clear Hinv.
  revert s e v Hrun. induction k as [| k IH]; intros s e v Hrun.
  - simpl in Hrun. inversion Hrun. subst. lia.
  - simpl in Hrun. apply step_Running in Hrun.
    destruct Hrun as (s0 & e0 & Hc & Hlt & Hb).
    destruct (IH s0 e0 v Hc) as (Hb0 & Hv).
    pose proof (loop_body_in_range table cc s0 e0 s e Hlt Hb). lia.
Qed.

Lemma lookup_reads_in_bounds_witness :
  Nat.iter 2 (step iso4217 "978") (Running 0 (List.length iso4217) 0%Z)
  = Running 136 180 0%Z /\
  136 <= 180 <= List.length iso4217 /\
  0%Z = 0%Z /\
  (136 < 180 ->
   136 <= midpoint 136 180 < 180 /\ midpoint 136 180 < List.length iso4217).
Proof.
  assert (H : Nat.iter 2 (step iso4217 "978")
                (Running 0 (List.length iso4217) 0%Z)
              = Running 136 180 0%Z) by (vm_compute; reflexivity).
  split; [exact H |].
  exact (lookup_reads_in_bounds iso4217 "978" 0%Z 2 136 180 0%Z H).
Defined.



(** X9 (the pattern, for any table): a linter built on the default lookup
    over a table whose rows are NUL-free and strictly ascending accepts
    exactly the strings of its table: it returns [GS1_LINTER_OK] when the
    input is a row, and its failure code otherwise. *)
Theorem validator_pattern_correct (width : nat) (table : list string)
        (not_in_set : gs1_lint_err_t) :
  well_formed width table = true ->
  forall data err_pos err_len m,
    (In (c_str data) table ->
     result_code
       (gs1_lint (GS1_LINTER_LOOKUP table) not_in_set data err_pos err_len m)
     = Some GS1_LINTER_OK) /\
    (~ In (c_str data) table ->
     result_code
       (gs1_lint (GS1_LINTER_LOOKUP table) not_in_set data err_pos err_len m)
     = Some not_in_set).
Proof.
  intros Hwf data err_pos err_len m.
  destruct (gs1_lint_decides width table not_in_set data err_pos err_len m
              Hwf) as [Hin Hout].
  split; intros H; [rewrite (Hin H) | rewrite (Hout H)]; reflexivity.
Qed.

Lemma validator_pattern_correct_witness :
  well_formed 3 probe_table = true /\
  In (c_str "012") probe_table /\
  ~ In (c_str "12") probe_table /\
  result_code
    (gs1_lint (GS1_LINTER_LOOKUP probe_table) GS1_LINTER_NOT_ISO4217
              "012" NULL NULL fresh_memory)
  = Some GS1_LINTER_OK /\
  result_code
    (gs1_lint (GS1_LINTER_LOOKUP probe_table) GS1_LINTER_NOT_ISO4217
              "12" NULL NULL fresh_memory)
  = Some GS1_LINTER_NOT_ISO4217.
Proof.
  assert (Hwf : well_formed 3 probe_table = true) by (vm_compute; reflexivity).
  assert (Hin : In (c_str "012") probe_table)
    by (apply present_by_scan; vm_compute; reflexivity).
  assert (Hout : ~ In (c_str "12") probe_table)
    by (apply absent_by_scan; vm_compute; reflexivity).
  split; [exact Hwf |]. split; [exact Hin |]. split; [exact Hout |].
  split.
  - exact (proj1 (validator_pattern_correct 3 probe_table
                    GS1_LINTER_NOT_ISO4217 Hwf "012" NULL NULL fresh_memory)
             Hin).
  - exact (proj2 (validator_pattern_correct 3 probe_table
                    GS1_LINTER_NOT_ISO4217 Hwf "12" NULL NULL fresh_memory)
             Hout).
Defined.

(** ** The ISO 4217 linter *)

Lemma iso4217_digits : forallb all_digits iso4217 = true.
Proof. vm_compute. reflexivity. Qed.

Lemma iso3166_digits : forallb all_digits iso3166 = true.
Proof. vm_compute. reflexivity. Qed.

(** X1 (the ISO 4217 table): the [iso4217] table has 180 rows, each of
    exactly 3 characters, all of them digits; the rows are in strict
    ascending byte order under [strcmp], so the binary search may be used
    on it; and no row occurs twice. *)
Theorem iso4217_table_well_formed :
  List.length iso4217 = 180 /\
  Forall (fun t => String.length t = 3 /\ nul_free t = true /\
                   all_digits t = true) iso4217 /\
  sorted iso4217 /\
  NoDup iso4217.
Proof.
  destruct (well_formed_parts 3 iso4217 iso4217_checked) as (Hnf & Hw & Hs).
  pose proof iso4217_digits as Hd.
  split; [reflexivity |]. split; [| split].
  - rewrite forallb_forall in Hnf, Hd. rewrite Forall_forall in *.
    intros t Ht. repeat split; auto.
  - exact Hs.
  - now apply sorted_NoDup.
Qed.

(** X2 (ISO 4217, completeness and soundness): [gs1_lint_iso4217] returns
    [GS1_LINTER_OK] when the string [data] denotes is a row of the
    [iso4217] table and [GS1_LINTER_NOT_ISO4217] when it is not, whatever
    the out-parameters and the memory. *)
Theorem iso4217_accepts_exactly_table (data : string)
        (err_pos err_len : ptr) (m : memory) :
  (In (c_str data) iso4217 ->
   result_code (gs1_lint_iso4217 data err_pos err_len m)
   = Some GS1_LINTER_OK) /\
  (~ In (c_str data) iso4217 ->
   result_code (gs1_lint_iso4217 data err_pos err_len m)
   = Some GS1_LINTER_NOT_ISO4217).
Proof.
  destruct (gs1_lint_iso4217_decides data err_pos err_len m) as [Hin Hout].
  split; intros H; [rewrite (Hin H) | rewrite (Hout H)]; reflexivity.
Qed.

Lemma iso4217_accepts_exactly_table_witness :
  In (c_str "978") iso4217 /\
  ~ In (c_str "979 ") iso4217 /\
  result_code (gs1_lint_iso4217 "978" (Some 1) NULL fresh_memory)
  = Some GS1_LINTER_OK /\
  result_code (gs1_lint_iso4217 "979 " (Some 1) NULL fresh_memory)
  = Some GS1_LINTER_NOT_ISO4217.
Proof.
  assert (Hin : In (c_str "978") iso4217)
    by (apply present_by_scan; vm_compute; reflexivity).
  assert (Hout : ~ In (c_str "979 ") iso4217)
    by (apply absent_by_scan; vm_compute; reflexivity).
  split; [exact Hin |]. split; [exact Hout |]. split.
  - exact (proj1 (iso4217_accepts_exactly_table "978" (Some 1) NULL
                    fresh_memory) Hin).
  - exact (proj2 (iso4217_accepts_exactly_table "979 " (Some 1) NULL
                    fresh_memory) Hout).
Defined.

(** ** What both linters reject outright *)

Lemma rows_have_width width table data :
  well_formed width table = true ->
  In (c_str data) table -> strlen data = width.
Proof.
  intros Hwf Hin.
  destruct (well_formed_parts width table Hwf) as (_ & Hw & _).
  rewrite Forall_forall in Hw. rewrite strlen_c_str. now apply Hw.
Qed.

Lemma gs1_lint_iso3166_decides data err_pos err_len m :
  (In (c_str data) iso3166 ->
   gs1_lint_iso3166 data err_pos err_len m = Return GS1_LINTER_OK m) /\
  (~ In (c_str data) iso3166 ->
   gs1_lint_iso3166 data err_pos err_len m
   = Return GS1_LINTER_NOT_ISO3166
       (perform (span_writes data err_pos err_len) m)).
Proof.
  exact (gs1_lint_decides 3 iso3166 GS1_LINTER_NOT_ISO3166
           data err_pos err_len m iso3166_checked).
Qed.

(** X7 (no padding, no truncation): an input whose length, up to its NUL,
    is not 3 is rejected by both linters, [gs1_lint_iso3166] with
    [GS1_LINTER_NOT_ISO3166] and [gs1_lint_iso4217] with
    [GS1_LINTER_NOT_ISO4217]: a listed code followed or preceded by any
    further character, or cut short, is not accepted. *)
Theorem wrong_length_rejected (data : string) :
  strlen data <> 3 ->
  forall err_pos err_len m,
    result_code (gs1_lint_iso3166 data err_pos err_len m)
    = Some GS1_LINTER_NOT_ISO3166 /\
    result_code (gs1_lint_iso4217 data err_pos err_len m)
    = Some GS1_LINTER_NOT_ISO4217.
Proof.
  intros Hlen err_pos err_len m. split.
  - rewrite (proj2 (gs1_lint_iso3166_decides data err_pos err_len m));
      [reflexivity |].
    intros Hin. apply Hlen.
    exact (rows_have_width 3 iso3166 data iso3166_checked Hin).
  - rewrite (proj2 (gs1_lint_iso4217_decides data err_pos err_len m));
      [reflexivity |].
    intros Hin. apply Hlen.
    exact (rows_have_width 3 iso4217 data iso4217_checked Hin).
Qed.

Lemma wrong_length_rejected_witness :
  strlen "0080" <> 3 /\
  result_code (gs1_lint_iso3166 "0080" (Some 1) (Some 2) fresh_memory)
  = Some GS1_LINTER_NOT_ISO3166 /\
  result_code (gs1_lint_iso4217 "0080" (Some 1) (Some 2) fresh_memory)
  = Some GS1_LINTER_NOT_ISO4217.
Proof.
  assert (H : strlen "0080" <> 3) by (vm_compute; lia).
  split; [exact H |].
  exact (wrong_length_rejected "0080" H (Some 1) (Some 2) fresh_memory).
Defined.

(** X8 (digits only): an input with a character other than '0' to '9'
    before its NUL is rejected by both linters.  Neither linter tests the
    characters; the rejection follows from the rows of both tables being
    digit strings. *)
Theorem non_digit_rejected (data : string) :
  all_digits (c_str data) = false ->
  forall err_pos err_len m,
    result_code (gs1_lint_iso3166 data err_pos err_len m)
    = Some GS1_LINTER_NOT_ISO3166 /\
    result_code (gs1_lint_iso4217 data err_pos err_len m)
    = Some GS1_LINTER_NOT_ISO4217.
Proof.
  intros Hnd err_pos err_len m. split.
  - rewrite (proj2 (gs1_lint_iso3166_decides data err_pos err_len m));
      [reflexivity |].
    intros Hin. pose proof iso3166_digits as Hd.
    rewrite forallb_forall in Hd. rewrite (Hd _ Hin) in Hnd. discriminate.
  - rewrite (proj2 (gs1_lint_iso4217_decides data err_pos err_len m));
      [reflexivity |].
    intros Hin. pose proof iso4217_digits as Hd.
    rewrite forallb_forall in Hd. rewrite (Hd _ Hin) in Hnd. discriminate.
Qed.

Lemma non_digit_rejected_witness :
  all_digits (c_str "O36") = false /\
  result_code (gs1_lint_iso3166 "O36" (Some 1) (Some 2) fresh_memory)
  = Some GS1_LINTER_NOT_ISO3166 /\
  result_code (gs1_lint_iso4217 "O36" (Some 1) (Some 2) fresh_memory)
  = Some GS1_LINTER_NOT_ISO4217.
Proof.
  assert (H : all_digits (c_str "O36") = false) by (vm_compute; reflexivity).
  split; [exact H |].
  exact (non_digit_rejected "O36" H (Some 1) (Some 2) fresh_memory).
Defined.
